(** * XQuAD task adapters: [lm_eval/tasks/xquad.py]

    A shallow embedding of the two task classes [xquad_en] and [xquad_ar] and
    of the module-level helpers [_squad_metric] and [_squad_agg].

    - Python exceptions are values of [exn]; code that can raise returns a
      [result].
    - Objects that reach the adapter from outside (the [results] of the
      requests, the values of [args], the inherited configuration) are
      Python values, [pyval].
    - Dictionaries with string keys are [gmap string _].
    - A Python [float] is a binary64 value, [PrimFloat.float].
    - The imported libraries ([math.exp], [datasets.load_metric]) are not part
      of the file; they are the interfaces [MathLib] and [DatasetsLib]. *)

From Stdlib Require Import ZArith String Ascii List Floats.PrimFloat.
From stdpp Require Import gmap strings list fin_maps.

Local Open Scope string_scope.

(** ** Exceptions and results *)

Inductive exn : Set :=
| TypeError
| ValueError
| KeyError
| OverflowError
| UnboundLocalError.

Inductive result (A : Type) : Type :=
| Ok (a : A)
| Err (e : exn).
Arguments Ok {A} a.
Arguments Err {A} e.

#[global] Instance result_ret : MRet result := fun A a => Ok a.
#[global] Instance result_bind : MBind result := fun A B f r =>
  match r with
  | Ok a => f a
  | Err e => Err e
  end.

Definition raises {A} (r : result A) : Prop := exists e, r = Err e.
Definition returns {A} (r : result A) : Prop := exists a, r = Ok a.

(** ** Python values *)

#[warnings="-register-all"]
Inductive pyval : Type :=
| PyNone
| PyBool (b : bool)
| PyInt (n : Z)
| PyFloat (f : float)
| PyStr (s : string)
| PyTuple (xs : list pyval)
| PyList (xs : list pyval).

(** A literal [{k1: v1, ..., kn: vn}]: the entries are stored left to right,
    so a repeated key keeps its last value. *)
Definition dict {V} (entries : list (string * V)) : gmap string V :=
  fold_left (fun d kv => <[kv.1 := kv.2]> d) entries ∅.
#[global] Arguments dict : simpl never.

(** [d[k]] on a dictionary. *)
Definition getitem {V} (d : gmap string V) (k : string) : result V :=
  match d !! k with
  | Some v => Ok v
  | None => Err KeyError
  end.

(** The items an unpacking assignment draws from its right-hand side: the
    elements of a tuple or list, the characters of a string; any other value
    of [pyval] is not iterable. *)
Definition iter (v : pyval) : result (list pyval) :=
  match v with
  | PyTuple xs | PyList xs => Ok xs
  | PyStr s => Ok (map (fun c => PyStr (String c EmptyString)) (list_ascii_of_string s))
  | PyNone | PyBool _ | PyInt _ | PyFloat _ => Err TypeError
  end.

(** [a, b = v]: exactly two items, or [ValueError]. *)
Definition unpack2 (v : pyval) : result (pyval * pyval) :=
  xs ← iter v;
  match xs with
  | [a; b] => Ok (a, b)
  | _ => Err ValueError
  end.

(** Reading a local variable: one that no assignment has bound yet raises
    [UnboundLocalError]. *)
Definition local {A} (x : option A) : result A :=
  match x with
  | Some a => Ok a
  | None => Err UnboundLocalError
  end.

(** ** [math.exp] *)

(** The arguments [math.exp] takes as a real number: a float, or an int
    ([True] and [False] are the ints 1 and 0), which it converts itself. *)
Inductive pyreal : Set :=
| RealFloat (f : float)
| RealInt (n : Z).

Definition real_of (v : pyval) : result pyreal :=
  match v with
  | PyFloat f => Ok (RealFloat f)
  | PyInt n => Ok (RealInt n)
  | PyBool b => Ok (RealInt (Z.b2z b))
  | PyNone | PyStr _ | PyTuple _ | PyList _ => Err TypeError
  end.

(** [from math import exp]: the value at a real number, or the exception it
    raises there ([OverflowError] out of range). *)
Class MathLib := { exp : pyreal -> result float }.

(** [exp(v)] on an arbitrary argument: [TypeError] unless [v] is a real number. *)
Definition call_exp `{!MathLib} (v : pyval) : result float :=
  x ← real_of v; exp x.

(** ** Data model *)

(** [doc['answers']] *)
Record Answers := {
  text : list string;
  answer_start : list Z
}.

(** A record of the dataset; the fields are the keys ['id'], ['context'],
    ['question'], ['answers']. *)
Record Doc := {
  doc_id : string;
  doc_context : string;
  doc_question : string;
  doc_answers : Answers
}.

(** The dictionary [predictions] of [process_results]; the fields are the keys
    ['id'], ['prediction_text'], ['no_answer_probability']. *)
Record Prediction := {
  pred_id : string;
  prediction_text : pyval;
  no_answer_probability : float
}.

(** The dictionary [references]: keys ['id'], ['answers']. *)
Record Reference := {
  ref_id : string;
  ref_answers : Answers
}.

(** The dictionary [example]: keys ["pred"], ["target"]. *)
Record Example := {
  ex_pred : pyval;
  ex_target : Answers
}.

(** What a task instance inherits from [PromptSourceTask]: the attribute
    [save_examples], the values the methods [stopping_criteria()] and
    [max_generation_length()] return, and the loaded [dataset], a dictionary
    from split name to its records. *)
Record PromptSourceTask := {
  save_examples : bool;
  stopping_criteria : pyval;
  max_generation_length : pyval;
  dataset : gmap string (list Doc)
}.

(** The requests the factory [rf] builds: [rf.greedy_until(ctx, request_args)]
    and [rf.loglikelihood(ctx, continuation)]. *)
Inductive Request : Type :=
| greedy_until (ctx : string) (request_args : gmap string pyval)
| loglikelihood (ctx : string) (continuation : string).

(** ** The Scoring Service *)

(** The object [datasets.load_metric(name)] returns; [compute] is its method
    [compute(predictions=..., references=...)], from the two parallel lists to
    the dictionary of named metrics. *)
Record Metric := {
  compute : list Prediction -> list Reference -> result (gmap string float)
}.

(** [import datasets] *)
Class DatasetsLib := { load_metric : string -> Metric }.

(** One invocation of a metric's [compute], with the lists it was given. *)
Record Call := {
  call_predictions : list Prediction;
  call_references : list Reference
}.

(** Code that may invoke the Scoring Service: it extends the log of the
    invocations made so far, and returns or raises. *)
Record Svc (A : Type) := MkSvc { run : list Call -> list Call * result A }.
Arguments MkSvc {A} run.
Arguments run {A} s log.

#[global] Instance svc_ret : MRet Svc := fun A a => MkSvc (fun log => (log, Ok a)).
#[global] Instance svc_bind : MBind Svc := fun A B f m =>
  MkSvc (fun log =>
    match run m log with
    | (log', Ok a) => run (f a) log'
    | (log', Err e) => (log', Err e)
    end).

(** Service-free code inside [Svc]. *)
Definition lift {A} (r : result A) : Svc A := MkSvc (fun log => (log, r)).

(** [m.compute(predictions=predictions, references=references)] *)
Definition call_compute (m : Metric) (predictions : list Prediction)
    (references : list Reference) : Svc (gmap string float) :=
  MkSvc (fun log =>
    ((log ++ [{| call_predictions := predictions; call_references := references |}])%list,
     compute m predictions references)).

(** [zip( *items)] on a list of pairs: no column at all when the list is
    empty, otherwise the firsts and the seconds. *)
Definition zip_star {A B} (items : list (A * B)) : option (list A * list B) :=
  match items with
  | [] => None
  | _ :: _ => Some (map fst items, map snd items)
  end.

Definition _squad_metric `{!DatasetsLib} (predictions : list Prediction)
    (references : list Reference) : Svc (gmap string float) :=
  let squad_metric := load_metric "squad_v2" in
  call_compute squad_metric predictions references.

Definition _squad_agg `{!DatasetsLib} (key : string)
    (items : list (Prediction * Reference)) : Svc float :=
  match zip_star items with
  | Some (predictions, references) =>
      d ← _squad_metric predictions references;
      lift (getitem d key)
  | None => lift (Err ValueError)
  end.

(** ** The task classes

    Each class is a module; a method takes the instance [self] first. The
    partial application [partial(_squad_agg, k)] is [_squad_agg k]. The
    generation request's arguments evaluate [self.stopping_criteria()],
    [self.max_generation_length()] and then [args["num_fewshot"]], the only
    one of the three that can raise. *)

Module xquad_en.

Definition VERSION : Z := 1.
Definition DATASET_PATH : string := "xquad".
Definition DATASET_NAME : string := "xquad.en".

Definition has_training_docs (self : PromptSourceTask) : bool := false.

Definition has_validation_docs (self : PromptSourceTask) : bool := true.

Definition has_test_docs (self : PromptSourceTask) : bool := false.

Definition training_docs (self : PromptSourceTask) : result (list Doc) :=
  getitem (dataset self) "train".

Definition validation_docs (self : PromptSourceTask) : result (list Doc) :=
  getitem (dataset self) "validation".

Definition construct_requests (self : PromptSourceTask) (doc : Doc)
    (ctx : string) (args : gmap string pyval) : result (list Request) :=
  num_fewshot ← getitem args "num_fewshot";
  let request_args := dict [
    ("stopping_criteria", stopping_criteria self);
    ("max_generation_length", max_generation_length self);
    ("num_fewshot", num_fewshot)
  ] in
  let cont_request := greedy_until ctx request_args in
  let is_unanswerable := loglikelihood ctx (" " +:+ "unanswerable") in
  Ok [cont_request; is_unanswerable].

Definition process_results `{!MathLib} (self : PromptSourceTask) (doc : Doc)
    (results : pyval)
    : result (gmap string (Prediction * Reference) * Example) :=
  '(pred, second) ← unpack2 results;
  '(logprob_unanswerable, _) ← unpack2 second;
  no_answer_probability ← call_exp logprob_unanswerable;
  let predictions := {|
    pred_id := doc_id doc;
    prediction_text := pred;
    no_answer_probability := no_answer_probability
  |} in
  let references := {|
    ref_id := doc_id doc;
    ref_answers := doc_answers doc
  |} in
  let example :=
    if save_examples self
    then Some {| ex_pred := pred; ex_target := doc_answers doc |}
    else None in
  let metrics := dict [
    ("exact", (predictions, references));
    ("f1", (predictions, references));
    ("HasAns_exact", (predictions, references));
    ("HasAns_f1", (predictions, references));
    ("NoAns_exact", (predictions, references));
    ("NoAns_f1", (predictions, references));
    ("best_exact", (predictions, references));
    ("best_f1", (predictions, references))
  ] in
  example ← local example;
  Ok (metrics, example).

Definition aggregation `{!DatasetsLib}
    : gmap string (list (Prediction * Reference) -> Svc float) :=
  dict [
    ("exact", _squad_agg "exact");
    ("f1", _squad_agg "f1");
    ("HasAns_exact", _squad_agg "HasAns_exact");
    ("HasAns_f1", _squad_agg "HasAns_f1");
    ("NoAns_exact", _squad_agg "NoAns_exact");
    ("NoAns_f1", _squad_agg "NoAns_f1");
    ("best_exact", _squad_agg "best_exact");
    ("best_f1", _squad_agg "best_f1")
  ].

Definition higher_is_better : gmap string bool :=
  dict [
    ("exact", true);
    ("f1", true);
    ("HasAns_exact", true);
    ("HasAns_f1", true);
    ("NoAns_exact", true);
    ("NoAns_f1", true);
    ("best_exact", true);
    ("best_f1", true)
  ].

End xquad_en.

Module xquad_ar.

Definition VERSION : Z := 1.
Definition DATASET_PATH : string := "xquad".
Definition DATASET_NAME : string := "xquad.ar".

Definition has_training_docs (self : PromptSourceTask) : bool := false.

Definition has_validation_docs (self : PromptSourceTask) : bool := true.

Definition has_test_docs (self : PromptSourceTask) : bool := false.

Definition training_docs (self : PromptSourceTask) : result (list Doc) :=
  getitem (dataset self) "train".

Definition validation_docs (self : PromptSourceTask) : result (list Doc) :=
  getitem (dataset self) "validation".

Definition construct_requests (self : PromptSourceTask) (doc : Doc)
    (ctx : string) (args : gmap string pyval) : result (list Request) :=
  num_fewshot ← getitem args "num_fewshot";
  let request_args := dict [
    ("stopping_criteria", stopping_criteria self);
    ("max_generation_length", max_generation_length self);
    ("num_fewshot", num_fewshot)
  ] in
  let cont_request := greedy_until ctx request_args in
  let is_unanswerable := loglikelihood ctx (" " +:+ "unanswerable") in
  Ok [cont_request; is_unanswerable].

Definition process_results `{!MathLib} (self : PromptSourceTask) (doc : Doc)
    (results : pyval)
    : result (gmap string (Prediction * Reference) * Example) :=
  '(pred, second) ← unpack2 results;
  '(logprob_unanswerable, _) ← unpack2 second;
  no_answer_probability ← call_exp logprob_unanswerable;
  let predictions := {|
    pred_id := doc_id doc;
    prediction_text := pred;
    no_answer_probability := no_answer_probability
  |} in
  let references := {|
    ref_id := doc_id doc;
    ref_answers := doc_answers doc
  |} in
  let example :=
    if save_examples self
    then Some {| ex_pred := pred; ex_target := doc_answers doc |}
    else None in
  let metrics := dict [
    ("exact", (predictions, references));
    ("f1", (predictions, references));
    ("HasAns_exact", (predictions, references));
    ("HasAns_f1", (predictions, references));
    ("best_exact_thresh", (predictions, references));
    ("best_f1_thresh", (predictions, references));
    ("best_exact", (predictions, references));
    ("best_f1", (predictions, references))
  ] in
  example ← local example;
  Ok (metrics, example).

Definition aggregation `{!DatasetsLib}
    : gmap string (list (Prediction * Reference) -> Svc float) :=
  dict [
    ("exact", _squad_agg "exact");
    ("f1", _squad_agg "f1");
    ("HasAns_exact", _squad_agg "HasAns_exact");
    ("HasAns_f1", _squad_agg "HasAns_f1");
    ("best_exact_thresh", _squad_agg "best_exact_thresh");
    ("best_f1_thresh", _squad_agg "best_f1_thresh");
    ("best_exact", _squad_agg "best_exact");
    ("best_f1", _squad_agg "best_f1")
  ].

Definition higher_is_better : gmap string bool :=
  dict [
    ("exact", true);
    ("f1", true);
    ("HasAns_exact", true);
    ("HasAns_f1", true);
    ("best_exact_thresh", true);
    ("best_f1_thresh", true);
    ("best_exact", true);
    ("best_f1", true)
  ].

End xquad_ar.

(** ** Dispatch on the task class

    The harness holds a task of one of the two classes and calls its methods
    by name. *)

Inductive TaskClass : Set :=
| Xquad_en
| Xquad_ar.

Module Task.

Definition DATASET_NAME (cls : TaskClass) : string :=
  match cls with
  | Xquad_en => xquad_en.DATASET_NAME
  | Xquad_ar => xquad_ar.DATASET_NAME
  end.

Definition has_training_docs (cls : TaskClass) :=
  match cls with
  | Xquad_en => xquad_en.has_training_docs
  | Xquad_ar => xquad_ar.has_training_docs
  end.

Definition has_validation_docs (cls : TaskClass) :=
  match cls with
  | Xquad_en => xquad_en.has_validation_docs
  | Xquad_ar => xquad_ar.has_validation_docs
  end.

Definition has_test_docs (cls : TaskClass) :=
  match cls with
  | Xquad_en => xquad_en.has_test_docs
  | Xquad_ar => xquad_ar.has_test_docs
  end.

Definition training_docs (cls : TaskClass) :=
  match cls with
  | Xquad_en => xquad_en.training_docs
  | Xquad_ar => xquad_ar.training_docs
  end.

Definition validation_docs (cls : TaskClass) :=
  match cls with
  | Xquad_en => xquad_en.validation_docs
  | Xquad_ar => xquad_ar.validation_docs
  end.

Definition construct_requests (cls : TaskClass) :=
  match cls with
  | Xquad_en => xquad_en.construct_requests
  | Xquad_ar => xquad_ar.construct_requests
  end.

Definition process_results `{!MathLib} (cls : TaskClass) :=
  match cls with
  | Xquad_en => xquad_en.process_results
  | Xquad_ar => xquad_ar.process_results
  end.

Definition aggregation `{!DatasetsLib} (cls : TaskClass) :=
  match cls with
  | Xquad_en => xquad_en.aggregation
  | Xquad_ar => xquad_ar.aggregation
  end.

Definition higher_is_better (cls : TaskClass) :=
  match cls with
  | Xquad_en => xquad_en.higher_is_better
  | Xquad_ar => xquad_ar.higher_is_better
  end.

End Task.

(** ** Shapes of [results] *)

(** The shape the harness promises: a sequence of the generated string and a
    sequence of the log-probability, a float, and the greedy flag, a bool. *)
Definition expected_shape (results : pyval) : bool :=
  match results with
  | PyTuple [PyStr _; second] | PyList [PyStr _; second] =>
      match second with
      | PyTuple [PyFloat _; PyBool _] | PyList [PyFloat _; PyBool _] => true
      | _ => false
      end
  | _ => false
  end.

Definition is_real (v : pyval) : bool :=
  match v with
  | PyFloat _ | PyInt _ | PyBool _ => true
  | PyNone | PyStr _ | PyTuple _ | PyList _ => false
  end.

(** The shape the first two statements of [process_results] get through
    without [TypeError] or [ValueError]: two items, the second of two items,
    the first of which is a real number. *)
Definition unpackable (results : pyval) : bool :=
  match iter results with
  | Ok [_; second] =>
      match iter second with
      | Ok [logprob_unanswerable; _] => is_real logprob_unanswerable
      | _ => false
      end
  | _ => false
  end.

(** ** Worked inputs *)

Module Sample.

(** [math.exp] at the arguments the worked inputs pass: [exp(0.0) = 1.0],
      [exp(-5.0) = 0.006737946999085467] and [exp(1) = 2.718281828459045].
      No worked input asks for another argument; the table answers those
      with [OverflowError]. *)
Definition exp_table (x : pyreal) : result float :=
  match x with
  | RealFloat f =>
      if (f =? 0)%float then Ok 1%float
      else if (f =? -5)%float then Ok 0x1.b993fe00d5376p-8%float
      else Err OverflowError
  | RealInt n =>
      if (n =? 1)%Z then Ok 0x1.5bf0a8b145769p+1%float
      else Err OverflowError
  end.

Definition math : MathLib := {| exp := exp_table |}.

(** A Scoring Service that reports every declared metric as [1.0]. *)
Definition all_ones : Metric := {|
  compute := fun _ _ => Ok (dict [
    ("exact", 1%float); ("f1", 1%float);
    ("HasAns_exact", 1%float); ("HasAns_f1", 1%float);
    ("NoAns_exact", 1%float); ("NoAns_f1", 1%float);
    ("best_exact", 1%float); ("best_f1", 1%float);
    ("best_exact_thresh", 1%float); ("best_f1_thresh", 1%float)
  ])
  |}.

Definition datasets : DatasetsLib := {| load_metric := fun _ => all_ones |}.

Definition paris : Doc := {|
  doc_id := "1";
  doc_context := "Paris is the capital of France.";
  doc_question := "What is the capital of France?";
  doc_answers := {| text := ["Paris"]; answer_start := [0%Z] |}
  |}.

(** A task over a dataset with the validation split only, as XQuAD has. *)
Definition task (save : bool) : PromptSourceTask := {|
  save_examples := save;
  stopping_criteria := PyNone;
  max_generation_length := PyNone;
  dataset := dict [("validation", [paris])]
  |}.

Definition args : gmap string pyval := dict [("num_fewshot", PyInt 0)].

(** The results of the two requests, in construction order. *)
Definition results : pyval :=
  PyList [PyStr "Paris"; PyTuple [PyFloat (-5); PyBool false]].

(** A generated value that is not a string. *)
Definition results_int_pred : pyval :=
  PyList [PyInt 5; PyTuple [PyFloat 0; PyBool false]].

(** The pair of the second request in the wrong order. *)
Definition results_swapped : pyval :=
  PyList [PyStr "Paris"; PyTuple [PyBool true; PyFloat (-5)]].

(** The tuple scored for [paris] from a generated value and a probability. *)
Definition payload (pred : pyval) (p : float) : Prediction * Reference :=
  ({| pred_id := "1"; prediction_text := pred; no_answer_probability := p |},
   {| ref_id := "1"; ref_answers := doc_answers paris |}).

(** The mapping [xquad_en.process_results] returns around a tuple. *)
Definition metrics_en (item : Prediction * Reference)
    : gmap string (Prediction * Reference) :=
  dict [
    ("exact", item); ("f1", item);
    ("HasAns_exact", item); ("HasAns_f1", item);
    ("NoAns_exact", item); ("NoAns_f1", item);
    ("best_exact", item); ("best_f1", item)
  ].

(** The mapping [xquad_ar.process_results] returns around a tuple. *)
Definition metrics_ar (item : Prediction * Reference)
    : gmap string (Prediction * Reference) :=
  dict [
    ("exact", item); ("f1", item);
    ("HasAns_exact", item); ("HasAns_f1", item);
    ("best_exact_thresh", item); ("best_f1_thresh", item);
    ("best_exact", item); ("best_f1", item)
  ].

(** The example logged for [paris] with a generated value. *)
Definition example (pred : pyval) : Example :=
  {| ex_pred := pred; ex_target := doc_answers paris |}.

(** A Scoring Service that reports no [NoAns_*] field, as one scoring a
    split whose questions all have answers. *)
Definition answerable_only : Metric := {|
  compute := fun _ _ => Ok (dict [
    ("exact", 1%float); ("f1", 1%float);
    ("HasAns_exact", 1%float); ("HasAns_f1", 1%float);
    ("best_exact", 1%float); ("best_exact_thresh", 0%float);
    ("best_f1", 1%float); ("best_f1_thresh", 0%float)
  ])
|}.

Definition datasets_answerable : DatasetsLib :=
  {| load_metric := fun _ => answerable_only |}.

(** A Scoring Service that raises. *)
Definition failing : Metric := {| compute := fun _ _ => Err ValueError |}.

Definition datasets_failing : DatasetsLib := {| load_metric := fun _ => failing |}.

(** [paris] with another passage and question. *)
Definition paris_reworded : Doc := {|
  doc_id := "1";
  doc_context := "The capital of France is Paris.";
  doc_question := "Which city is the capital of France?";
  doc_answers := {| text := ["Paris"]; answer_start := [0%Z] |}
|}.

(** A [datasets] library that knows the metric ["squad_v2"] only. *)
Definition datasets_squad_v2_only : DatasetsLib :=
  {| load_metric := fun name => if String.eqb name "squad_v2" then all_ones else failing |}.

(** Run args with an entry the adapter does not know. *)
Definition args_with_seed : gmap string pyval :=
  dict [("num_fewshot", PyInt 0); ("seed", PyInt 1234)].

(** A log-probability out of the range of [exp]. *)
Definition results_overflow : pyval :=
  PyList [PyStr "Paris"; PyTuple [PyFloat 800; PyBool false]].

End Sample.

(** ** Proof support *)

(** The tuple every metric name is bound to. *)
Definition scorable (doc : Doc) (pred : pyval) (p : float) : Prediction * Reference :=
  ({| pred_id := doc_id doc; prediction_text := pred; no_answer_probability := p |},
   {| ref_id := doc_id doc; ref_answers := doc_answers doc |}).

Ltac elem_cases H :=
  repeat (apply elem_of_cons in H as [H|H]; [inversion H; subst; clear H|]);
  try (by apply elem_of_nil in H).

(** Runs the statements of a method one at a time on the hypothesis [H] that
    the method returned. *)
Ltac step_through H :=
  repeat match type of H with
  | context [unpack2 ?v ≫= _] =>
      let E := fresh "Hunpack" in
      destruct (unpack2 v) as [[? ?]|] eqn:E; [simpl in H|discriminate H]
  | context [call_exp ?v ≫= _] =>
      let E := fresh "Hexp" in
      destruct (call_exp v) as [?|] eqn:E; [simpl in H|discriminate H]
  | context [save_examples ?s] =>
      let E := fresh "Hsave" in
      destruct (save_examples s) eqn:E; [simpl in H|discriminate H]
  end.

(** * Properties *)

(** ** Dictionaries built by a literal *)

Section dict_facts.
Context {V : Type}.
Implicit Types (entries : list (string * V)) (d : gmap string V).

Lemma dom_fold_insert entries d :
  dom (fold_left (fun d kv => <[kv.1 := kv.2]> d) entries d)
  = list_to_set entries.*1 ∪ dom d.
Proof.
  revert d. induction entries as [|[k v] entries IH]; intros d; simpl.
  - by rewrite (left_id_L ∅ (∪)).
  - rewrite IH, dom_insert_L.
    by rewrite (assoc_L (∪)), (comm_L (∪) _ {[k]}).
Qed.

Lemma dom_dict entries : dom (dict entries) = list_to_set entries.*1.
Proof.
  unfold dict. by rewrite dom_fold_insert, dom_empty_L, (right_id_L ∅ (∪)).
Qed.

Lemma lookup_fold_insert entries d k v :
  fold_left (fun d kv => <[kv.1 := kv.2]> d) entries d !! k = Some v ->
  (k, v) ∈ entries \/ d !! k = Some v.
Proof.
  revert d. induction entries as [|[k' v'] entries IH]; intros d; simpl.
  - auto.
  - intros [Hin|Hd]%IH.
    + left. by right.
    + apply lookup_insert_Some in Hd as [[<- <-]|[_ Hd]]; [left; left|by right].
Qed.

Lemma lookup_dict entries k v : dict entries !! k = Some v -> (k, v) ∈ entries.
Proof.
  intros [H|H]%lookup_fold_insert; [done|]. by rewrite lookup_empty in H.
Qed.
End dict_facts.

(** ** Results *)

Lemma bind_Ok {A B} (r : result A) (f : A -> result B) b :
  r ≫= f = Ok b -> exists a, r = Ok a /\ f a = Ok b.
Proof. destruct r as [a|e]; [eauto|discriminate]. Qed.

Lemma unpack2_Ok v a b : unpack2 v = Ok (a, b) <-> iter v = Ok [a; b].
Proof.
  unfold unpack2. destruct (iter v) as [[|x [|y [|z xs]]]|e]; simpl;
    split; intros H; by inversion H.
Qed.

Lemma call_exp_Ok `{!MathLib} v p :
  call_exp v = Ok p -> exists x, real_of v = Ok x /\ exp x = Ok p.
Proof. apply bind_Ok. Qed.

Lemma real_of_is_real v : is_real v = true <-> returns (real_of v).
Proof.
  unfold returns. destruct v; simpl; split; intros H; eauto;
    try discriminate; by destruct H.
Qed.

(** ** [process_results] *)


(** What a returned value tells about the run that produced it. *)
Lemma process_results_Ok `{!MathLib} cls self doc results m e :
  Task.process_results cls self doc results = Ok (m, e) ->
  exists pred second logprob_unanswerable g p,
    unpack2 results = Ok (pred, second) /\
    unpack2 second = Ok (logprob_unanswerable, g) /\
    call_exp logprob_unanswerable = Ok p /\
    save_examples self = true /\
    e = {| ex_pred := pred; ex_target := doc_answers doc |} /\
    dom m = dom (Task.higher_is_better cls) /\
    forall k v, m !! k = Some v -> v = scorable doc pred p.
Proof.
  intros Hret.
  destruct cls; simpl in Hret;
    unfold xquad_en.process_results, xquad_ar.process_results in Hret;
    step_through Hret; injection Hret as <- <-;
    match goal with
    | Hr : unpack2 results = Ok (?a, ?b), Hs : unpack2 ?b = Ok (?c, ?d),
      He : call_exp ?c = Ok ?p |- _ => exists a, b, c, d, p
    end;
    (split_and!; [done..|by rewrite !dom_dict|]);
    intros k v Hk%lookup_dict; elem_cases Hk; reflexivity.
Qed.

(** With example saving on, a result that unpacks and whose log-probability
    [exp] accepts is scored: the method returns. *)
Lemma process_results_returns `{!MathLib} cls self doc results
    pred second logprob_unanswerable g p :
  save_examples self = true ->
  unpack2 results = Ok (pred, second) ->
  unpack2 second = Ok (logprob_unanswerable, g) ->
  call_exp logprob_unanswerable = Ok p ->
  exists m, Task.process_results cls self doc results
            = Ok (m, {| ex_pred := pred; ex_target := doc_answers doc |}).
Proof.
  intros Hsave Hr Hs Hp.
  destruct cls; simpl; unfold xquad_en.process_results, xquad_ar.process_results;
    rewrite Hr; simpl; rewrite Hs; simpl; rewrite Hp; simpl; rewrite Hsave; simpl;
    eauto.
Qed.

Lemma iter_Err v e : iter v = Err e -> e = TypeError.
Proof. destruct v; simpl; congruence. Qed.

Lemma call_exp_not_real `{!MathLib} v : is_real v = false -> call_exp v = Err TypeError.
Proof. unfold call_exp. by destruct v. Qed.

(** Without example saving the local [example] is still unbound at the
    [return]: once the results are unpacked and [exp] has returned, the
    method raises [UnboundLocalError]. *)
Lemma process_results_UnboundLocalError `{!MathLib} cls self doc results
    pred second logprob_unanswerable g p :
  save_examples self = false ->
  unpack2 results = Ok (pred, second) ->
  unpack2 second = Ok (logprob_unanswerable, g) ->
  call_exp logprob_unanswerable = Ok p ->
  Task.process_results cls self doc results = Err UnboundLocalError.
Proof.
  intros Hsave Hr Hs Hp.
  destruct cls; simpl; unfold xquad_en.process_results, xquad_ar.process_results;
    rewrite Hr; simpl; rewrite Hs; simpl; rewrite Hp; simpl; by rewrite Hsave.
Qed.

(** C1, as the code behaves: with [save_examples] off, [process_results]
    returns no second value and no metrics either; it raises on every record
    and every [results], and on the worked results of both classes the
    exception is [UnboundLocalError], the read of the local [example] that no
    statement has bound. *)
Theorem process_results_without_save_examples_raises :
  (forall (M : MathLib) cls stop len data doc results,
     raises (Task.process_results cls
               {| save_examples := false; stopping_criteria := stop;
                  max_generation_length := len; dataset := data |}
               doc results)) /\
  Task.process_results (H := Sample.math) Xquad_en (Sample.task false)
    Sample.paris Sample.results = Err UnboundLocalError /\
  Task.process_results (H := Sample.math) Xquad_ar (Sample.task false)
    Sample.paris Sample.results = Err UnboundLocalError.
Proof.
  split; [|split; reflexivity].
  intros M cls stop len data doc results. unfold raises.
  destruct cls; simpl; unfold xquad_en.process_results, xquad_ar.process_results;
    (destruct (unpack2 results) as [[pred second]|]; simpl; [|eauto]);
    (destruct (unpack2 second) as [[lp g]|]; simpl; [|eauto]);
    (destruct (call_exp lp); simpl; eauto).
Qed.

(** C4: in the mapping [process_results] returns, the keys are the declared
    metric names of the class and every key is bound to one and the same
    (prediction, reference) tuple. *)
Theorem process_results_same_payload `{!MathLib} cls self doc results m e :
  Task.process_results cls self doc results = Ok (m, e) ->
  exists payload : Prediction * Reference,
    dom m = dom (Task.higher_is_better cls) /\
    forall k v, m !! k = Some v -> v = payload.
Proof.
  intros (pred & second & lp & g & p & _ & _ & _ & _ & _ & Hdom & Hall)%process_results_Ok.
  by exists (scorable doc pred p).
Qed.

(** C9, amended: a [results] that does not unpack into two items, the second
    into two items again, the first of them a real number, is not scored; the
    unpacking or [exp] raises [TypeError] or [ValueError]. *)
Theorem process_results_rejects_unpackable `{!MathLib} cls self doc results :
  unpackable results = false ->
  exists e, Task.process_results cls self doc results = Err e /\
            (e = TypeError \/ e = ValueError).
Proof.
  unfold unpackable. intros Hshape.
  destruct cls; simpl; unfold xquad_en.process_results, xquad_ar.process_results, unpack2;
    (destruct (iter results) as [[|pred [|second [|? ?]]]|e] eqn:Hr; simpl;
       [eauto|eauto| |eauto|apply iter_Err in Hr as ->; eauto]);
    (destruct (iter second) as [[|lp [|g [|? ?]]]|e] eqn:Hs; simpl;
       [eauto|eauto| |eauto|apply iter_Err in Hs as ->; eauto]);
    rewrite (call_exp_not_real lp Hshape); simpl; eauto.
Qed.

(** The types of the generated value and of the greedy flag are not looked
    at: whatever they are, a float log-probability that [exp] accepts is
    scored. *)
Lemma process_results_unchecked_items `{!MathLib} cls self doc pred f g p :
  save_examples self = true ->
  exp (RealFloat f) = Ok p ->
  returns (Task.process_results cls self doc (PyList [pred; PyTuple [PyFloat f; g]])).
Proof.
  intros Hsave Hp.
  destruct (process_results_returns cls self doc
              (PyList [pred; PyTuple [PyFloat f; g]]) pred
              (PyTuple [PyFloat f; g]) (PyFloat f) g p) as [m Hm]; try done.
  by eexists.
Qed.

(** The tuple under a metric name is built from the record and the results:
    the prediction holds the record's id, the generated value and what [exp]
    returned on the unpacked log-probability; the reference holds the
    record's id and answers; the logged example pairs the generated value
    with the answers. *)
Lemma scored_tuple_fields `{!MathLib} cls self doc results m e k pr rf :
  Task.process_results cls self doc results = Ok (m, e) ->
  m !! k = Some (pr, rf) ->
  exists pred second logprob_unanswerable g,
    unpack2 results = Ok (pred, second) /\
    unpack2 second = Ok (logprob_unanswerable, g) /\
    call_exp logprob_unanswerable = Ok (no_answer_probability pr) /\
    prediction_text pr = pred /\
    pred_id pr = doc_id doc /\
    ref_id rf = doc_id doc /\
    ref_answers rf = doc_answers doc /\
    e = {| ex_pred := pred; ex_target := doc_answers doc |}.
Proof.
  intros (pred & second & lp & g & p & Hr & Hs & Hp & _ & He & _ & Hall)%process_results_Ok Hk.
  apply Hall in Hk. injection Hk as -> ->.
  by exists pred, second, lp, g.
Qed.

(** ** Splits and documents *)

(** C7: every task of either class declares a validation split and neither
    a training nor a test split. *)
Theorem validation_split_only cls self :
  Task.has_training_docs cls self = false /\
  Task.has_test_docs cls self = false /\
  Task.has_validation_docs cls self = true.
Proof. by destruct cls. Qed.

(** C8, amended: the training and test queries answer [False], and
    [training_docs()] hands out the split stored under ["train"] in the
    loaded dataset, raising [KeyError] when the dataset has none. *)
Theorem training_docs_reads_train_split cls self :
  Task.has_training_docs cls self = false /\
  Task.has_test_docs cls self = false /\
  Task.training_docs cls self
  = match dataset self !! "train" with
    | Some docs => Ok docs
    | None => Err KeyError
    end.
Proof. by destruct cls. Qed.

(** ** [construct_requests] *)

(** C2: given run args that hold ["num_fewshot"], [construct_requests]
    returns two requests, a [greedy_until] on the context followed by a
    [loglikelihood] of the continuation [" unanswerable"] on the same
    context; the generation request carries the stopping criteria and the
    generation length of the task and the number of shots. *)
Theorem construct_requests_pair cls self doc ctx (args : gmap string pyval) n :
  args !! "num_fewshot" = Some n ->
  exists request_args : gmap string pyval,
    Task.construct_requests cls self doc ctx args
    = Ok [greedy_until ctx request_args; loglikelihood ctx " unanswerable"] /\
    request_args !! "stopping_criteria" = Some (stopping_criteria self) /\
    request_args !! "max_generation_length" = Some (max_generation_length self) /\
    request_args !! "num_fewshot" = Some n.
Proof.
  intros Hn.
  destruct cls; simpl; unfold xquad_en.construct_requests, xquad_ar.construct_requests,
    getitem; rewrite Hn; simpl; eexists; split_and!; reflexivity.
Qed.

(** Run args without ["num_fewshot"] are refused with [KeyError]. *)
Lemma construct_requests_KeyError cls self doc ctx (args : gmap string pyval) :
  args !! "num_fewshot" = None ->
  Task.construct_requests cls self doc ctx args = Err KeyError.
Proof.
  intros Hn.
  by destruct cls; simpl; unfold xquad_en.construct_requests, xquad_ar.construct_requests,
    getitem; rewrite Hn.
Qed.

(** C10: the two classes build the same requests from the same task
    configuration, record, context and run args, also when they raise; they
    share the dataset path and differ in the dataset name and in the set of
    declared metric names. *)
Theorem construct_requests_same_in_both_classes :
  (forall self doc ctx args,
     xquad_en.construct_requests self doc ctx args
     = xquad_ar.construct_requests self doc ctx args) /\
  xquad_en.DATASET_PATH = xquad_ar.DATASET_PATH /\
  xquad_en.DATASET_NAME <> xquad_ar.DATASET_NAME /\
  dom xquad_en.higher_is_better <> dom xquad_ar.higher_is_better.
Proof.
  split_and!; [reflexivity|reflexivity|discriminate|].
  intros Heq.
  assert ("NoAns_f1" ∈ dom xquad_ar.higher_is_better) as Hin.
  { rewrite <- Heq. apply elem_of_dom. by eexists. }
  apply elem_of_dom in Hin as [b Hb]. discriminate Hb.
Qed.

(** ** Aggregation *)

(** C5: [aggregation()] and [higher_is_better()] of a class have the same
    keys. *)
Theorem aggregation_higher_is_better_same_keys `{!DatasetsLib} cls :
  dom (Task.aggregation cls) = dom (Task.higher_is_better cls).
Proof.
  destruct cls; simpl;
    unfold xquad_en.aggregation, xquad_en.higher_is_better,
           xquad_ar.aggregation, xquad_ar.higher_is_better;
    by rewrite !dom_dict.
Qed.

(** No items: [zip] yields nothing to unpack, and the Scoring Service is
    not invoked. *)
Lemma _squad_agg_no_items `{!DatasetsLib} key log :
  run (_squad_agg key []) log = (log, Err ValueError).
Proof. reflexivity. Qed.

Lemma _squad_agg_items `{!DatasetsLib} key items log :
  items <> [] ->
  run (_squad_agg key items) log
  = ((log ++ [{| call_predictions := map fst items;
                 call_references := map snd items |}])%list,
     d ← compute (load_metric "squad_v2") (map fst items) (map snd items);
     getitem d key).
Proof.
  intros Hne. destruct items as [|item items]; [done|].
  unfold _squad_agg, _squad_metric; simpl.
  by destruct (compute _ _ _).
Qed.

(** C3: the aggregator of a declared metric name [k], run on a non-empty
    list of (prediction, reference) tuples, adds exactly one invocation to
    the log of the Scoring Service, on the list of all predictions and the
    list of all references, and returns field [k] of the dictionary that
    invocation returned. *)
Theorem aggregation_invokes_service_once `{!DatasetsLib} cls k
    (agg : list (Prediction * Reference) -> Svc float) items log :
  Task.aggregation cls !! k = Some agg ->
  items <> [] ->
  run (agg items) log
  = ((log ++ [{| call_predictions := map fst items;
                 call_references := map snd items |}])%list,
     d ← compute (load_metric "squad_v2") (map fst items) (map snd items);
     getitem d k).
Proof.
  intros Hk Hne.
  destruct cls; simpl in Hk; apply lookup_dict in Hk; elem_cases Hk;
    by apply _squad_agg_items.
Qed.

(** ** Worked inputs *)

(** [process_results] with example saving on, for [Sample.paris] and the
    results of its two requests: all eight names hold the one tuple. *)
Lemma process_results_same_payload_witness :
  Task.process_results (H := Sample.math) Xquad_en (Sample.task true)
    Sample.paris Sample.results
  = Ok (Sample.metrics_en (Sample.payload (PyStr "Paris") 0x1.b993fe00d5376p-8%float),
        Sample.example (PyStr "Paris")) /\
  exists payload : Prediction * Reference,
    dom (Sample.metrics_en (Sample.payload (PyStr "Paris") 0x1.b993fe00d5376p-8%float))
    = dom (Task.higher_is_better Xquad_en) /\
    forall k v,
      Sample.metrics_en (Sample.payload (PyStr "Paris") 0x1.b993fe00d5376p-8%float) !! k
      = Some v -> v = payload.
Proof.
  split; [reflexivity|].
  apply (process_results_same_payload (H := Sample.math) Xquad_en (Sample.task true)
           Sample.paris Sample.results _ (Sample.example (PyStr "Paris"))).
  reflexivity.
Defined.

(** C9, as stated, fails: neither result has the promised shape, one for an
    int where the generated string belongs, the other for the pair of the
    second request given as (flag, log-probability), and both are scored. In
    the second the flag [True] is read as the log-probability [1]. *)
Lemma process_results_scores_unexpected_shapes :
  expected_shape Sample.results_int_pred = false /\
  Task.process_results (H := Sample.math) Xquad_en (Sample.task true)
    Sample.paris Sample.results_int_pred
  = Ok (Sample.metrics_en (Sample.payload (PyInt 5) 1%float),
        Sample.example (PyInt 5)) /\
  expected_shape Sample.results_swapped = false /\
  Task.process_results (H := Sample.math) Xquad_en (Sample.task true)
    Sample.paris Sample.results_swapped
  = Ok (Sample.metrics_en (Sample.payload (PyStr "Paris") 0x1.5bf0a8b145769p+1%float),
        Sample.example (PyStr "Paris")).
Proof. split_and!; reflexivity. Qed.

(** A [results] that is no sequence at all is refused. *)
Lemma process_results_rejects_unpackable_witness :
  unpackable (PyInt 3) = false /\
  exists e, Task.process_results (H := Sample.math) Xquad_en (Sample.task true)
              Sample.paris (PyInt 3) = Err e /\
            (e = TypeError \/ e = ValueError).
Proof.
  split; [reflexivity|].
  apply (process_results_rejects_unpackable (H := Sample.math) Xquad_en
           (Sample.task true) Sample.paris (PyInt 3)).
  reflexivity.
Defined.

(** C8, as stated, fails: on a dataset with no ["train"] split, which is
    what XQuAD loads, [training_docs()] raises in both classes. *)
Lemma training_docs_raises_KeyError :
  Task.training_docs Xquad_en (Sample.task true) = Err KeyError /\
  Task.training_docs Xquad_ar (Sample.task true) = Err KeyError.
Proof. split; reflexivity. Qed.

Lemma construct_requests_pair_witness :
  Sample.args !! "num_fewshot" = Some (PyInt 0) /\
  exists request_args : gmap string pyval,
    Task.construct_requests Xquad_en (Sample.task true) Sample.paris "Q: " Sample.args
    = Ok [greedy_until "Q: " request_args; loglikelihood "Q: " " unanswerable"] /\
    request_args !! "stopping_criteria" = Some PyNone /\
    request_args !! "max_generation_length" = Some PyNone /\
    request_args !! "num_fewshot" = Some (PyInt 0).
Proof.
  split; [reflexivity|].
  apply (construct_requests_pair Xquad_en (Sample.task true) Sample.paris "Q: "
           Sample.args (PyInt 0)).
  reflexivity.
Defined.

(** The aggregator of ["f1"] on one scored tuple and an empty log. *)
Lemma aggregation_invokes_service_once_witness :
  Task.aggregation (H := Sample.datasets) Xquad_en !! "f1"
  = Some (_squad_agg (H := Sample.datasets) "f1") /\
  [Sample.payload (PyStr "Paris") 1%float] <> [] /\
  run (_squad_agg (H := Sample.datasets) "f1" [Sample.payload (PyStr "Paris") 1%float]) []
  = ([{| call_predictions := [(Sample.payload (PyStr "Paris") 1%float).1];
         call_references := [(Sample.payload (PyStr "Paris") 1%float).2] |}],
     Ok 1%float).
Proof.
  split; [reflexivity|]. split; [discriminate|].
  apply (aggregation_invokes_service_once (H := Sample.datasets) Xquad_en "f1"
           (_squad_agg (H := Sample.datasets) "f1")
           [Sample.payload (PyStr "Paris") 1%float] []);
    [reflexivity|discriminate].
Defined.

Lemma scored_tuple_fields_witness :
  Task.process_results (H := Sample.math) Xquad_ar (Sample.task true)
    Sample.paris Sample.results
  = Ok (Sample.metrics_ar (Sample.payload (PyStr "Paris") 0x1.b993fe00d5376p-8%float),
        Sample.example (PyStr "Paris")) /\
  Sample.metrics_ar (Sample.payload (PyStr "Paris") 0x1.b993fe00d5376p-8%float)
    !! "best_f1_thresh"
  = Some (Sample.payload (PyStr "Paris") 0x1.b993fe00d5376p-8%float) /\
  exists pred second logprob_unanswerable g,
    unpack2 Sample.results = Ok (pred, second) /\
    unpack2 second = Ok (logprob_unanswerable, g) /\
    call_exp (H := Sample.math) logprob_unanswerable = Ok 0x1.b993fe00d5376p-8%float /\
    PyStr "Paris" = pred /\
    "1" = doc_id Sample.paris /\
    "1" = doc_id Sample.paris /\
    doc_answers Sample.paris = doc_answers Sample.paris /\
    Sample.example (PyStr "Paris")
    = {| ex_pred := pred; ex_target := doc_answers Sample.paris |}.
Proof.
  split; [reflexivity|]. split; [reflexivity|].
  apply (scored_tuple_fields (H := Sample.math) Xquad_ar (Sample.task true)
           Sample.paris Sample.results
           (Sample.metrics_ar (Sample.payload (PyStr "Paris") 0x1.b993fe00d5376p-8%float))
           (Sample.example (PyStr "Paris")) "best_f1_thresh"
           (Sample.payload (PyStr "Paris") 0x1.b993fe00d5376p-8%float).1
           (Sample.payload (PyStr "Paris") 0x1.b993fe00d5376p-8%float).2);
    reflexivity.
Defined.

Lemma construct_requests_KeyError_witness :
  (∅ : gmap string pyval) !! "num_fewshot" = None /\
  Task.construct_requests Xquad_ar (Sample.task true) Sample.paris "Q: " ∅
  = Err KeyError.
Proof.
  split; [reflexivity|].
  apply (construct_requests_KeyError Xquad_ar (Sample.task true) Sample.paris "Q: " ∅).
  reflexivity.
Defined.

Lemma process_results_unchecked_items_witness :
  save_examples (Sample.task true) = true /\
  exp (MathLib := Sample.math) (RealFloat 0) = Ok 1%float /\
  returns (Task.process_results (H := Sample.math) Xquad_ar (Sample.task true)
             Sample.paris (PyList [PyNone; PyTuple [PyFloat 0; PyStr "greedy"]])).
Proof.
  split; [reflexivity|]. split; [reflexivity|].
  apply (process_results_unchecked_items (H := Sample.math) Xquad_ar (Sample.task true)
           Sample.paris PyNone 0%float (PyStr "greedy") 1%float);
    reflexivity.
Defined.

(** * Further properties *)

(** ** [process_results]: what it reads and what it ignores *)

(** The two classes score alike: on the same task, record and results both
    raise the same exception, or both return the same logged example and
    bind their names to the same tuple. Only the names differ. *)
Lemma process_results_classes_agree `{!MathLib} self doc results :
  match xquad_en.process_results self doc results,
        xquad_ar.process_results self doc results with
  | Ok (m_en, e_en), Ok (m_ar, e_ar) =>
      e_en = e_ar /\
      exists payload : Prediction * Reference,
        (forall k v, m_en !! k = Some v -> v = payload) /\
        (forall k v, m_ar !! k = Some v -> v = payload)
  | Err a, Err b => a = b
  | _, _ => False
  end.
Proof.
  unfold xquad_en.process_results, xquad_ar.process_results.
  destruct (unpack2 results) as [[pred second]|]; simpl; [|done].
  destruct (unpack2 second) as [[lp g]|]; simpl; [|done].
  destruct (call_exp lp) as [p|]; simpl; [|done].
  destruct (save_examples self); simpl; [|done].
  split; [done|]. exists (scorable doc pred p).
  split; intros k v Hk%lookup_dict; elem_cases Hk; reflexivity.
Qed.

(** Of [results] only the generated value and the log-probability count: the
    greedy flag, and whether the two sequences are tuples or lists, make no
    difference to the outcome. *)
Lemma process_results_ignores_greedy_flag `{!MathLib} cls self doc results
    pred second logprob_unanswerable g :
  unpack2 results = Ok (pred, second) ->
  unpack2 second = Ok (logprob_unanswerable, g) ->
  Task.process_results cls self doc results
  = Task.process_results cls self doc
      (PyTuple [pred; PyTuple [logprob_unanswerable; PyNone]]).
Proof.
  intros Hr Hs.
  destruct cls; simpl; unfold xquad_en.process_results, xquad_ar.process_results;
    rewrite Hr; simpl; rewrite Hs; reflexivity.
Qed.

(** Of the record only ['id'] and ['answers'] are read, and of the task only
    [save_examples]: the passage, the question, the stopping criteria, the
    generation length and the dataset do not reach the outcome. *)
Lemma process_results_reads_id_and_answers `{!MathLib} cls self self' doc doc' results :
  save_examples self = save_examples self' ->
  doc_id doc = doc_id doc' ->
  doc_answers doc = doc_answers doc' ->
  Task.process_results cls self doc results
  = Task.process_results cls self' doc' results.
Proof.
  intros Hsave Hid Hans.
  destruct cls; simpl; unfold xquad_en.process_results, xquad_ar.process_results;
    rewrite Hsave, Hid, Hans; reflexivity.
Qed.

(** An exception of [exp] on the unpacked log-probability, a [TypeError] or
    an [OverflowError] say, is the exception of [process_results], with
    example saving on or off. *)
Lemma process_results_exp_error `{!MathLib} cls self doc results
    pred second logprob_unanswerable g e :
  unpack2 results = Ok (pred, second) ->
  unpack2 second = Ok (logprob_unanswerable, g) ->
  call_exp logprob_unanswerable = Err e ->
  Task.process_results cls self doc results = Err e.
Proof.
  intros Hr Hs He.
  destruct cls; simpl; unfold xquad_en.process_results, xquad_ar.process_results;
    rewrite Hr; simpl; rewrite Hs; simpl; rewrite He; reflexivity.
Qed.

(** A string handed in as [results], the generated text alone say, is never
    scored: whatever its length, unpacking it raises [ValueError]. *)
Lemma process_results_string_results `{!MathLib} cls self doc s :
  Task.process_results cls self doc (PyStr s) = Err ValueError.
Proof.
  destruct cls; simpl; unfold xquad_en.process_results, xquad_ar.process_results;
    destruct s as [|a [|b [|c s]]]; reflexivity.
Qed.

(** The names [process_results] emits are the names [aggregation()] has an
    aggregator for: no emitted tuple is left without one, and no aggregator
    without tuples. *)
Lemma process_results_names_have_aggregators `{!MathLib} `{!DatasetsLib}
    cls self doc results m e :
  Task.process_results cls self doc results = Ok (m, e) ->
  dom m = dom (Task.aggregation cls).
Proof.
  intros (pred & second & lp & g & p & _ & _ & _ & _ & _ & Hdom & _)%process_results_Ok.
  rewrite Hdom.
  destruct cls; simpl;
    unfold xquad_en.aggregation, xquad_en.higher_is_better,
           xquad_ar.aggregation, xquad_ar.higher_is_better;
    by rewrite !dom_dict.
Qed.

(** ** [process_results]: when it returns *)

(** [process_results] returns in exactly one situation: example saving is
    on, [results] unpacks into two items and the second into two again, and
    [exp] returns on the first of those. *)
Lemma process_results_returns_iff `{!MathLib} cls self doc results :
  returns (Task.process_results cls self doc results) <->
  save_examples self = true /\
  exists pred second logprob_unanswerable g,
    unpack2 results = Ok (pred, second) /\
    unpack2 second = Ok (logprob_unanswerable, g) /\
    returns (call_exp logprob_unanswerable).
Proof.
  split.
  - intros [[m e] (pred & second & lp & g & p & Hr & Hs & Hp & Hsave & _)%process_results_Ok].
    split; [done|]. exists pred, second, lp, g. split_and!; [done..|by exists p].
  - intros (Hsave & pred & second & lp & g & Hr & Hs & [p Hp]).
    destruct (process_results_returns cls self doc results pred second lp g p)
      as [m Hm]; [done..|].
    by eexists.
Qed.

(** ** Aggregation: the call to the Scoring Service *)

(** Every aggregator of either class is [_squad_agg] at its own name. *)
Lemma aggregation_lookup `{!DatasetsLib} cls k
    (agg : list (Prediction * Reference) -> Svc float) :
  Task.aggregation cls !! k = Some agg -> agg = _squad_agg k.
Proof.
  intros Hk. destruct cls; simpl in Hk; apply lookup_dict in Hk; elem_cases Hk;
    reflexivity.
Qed.

(** With no items accumulated, every declared aggregator raises [ValueError]
    and leaves the Scoring Service uncalled. *)
Lemma aggregation_no_items `{!DatasetsLib} cls k
    (agg : list (Prediction * Reference) -> Svc float) log :
  Task.aggregation cls !! k = Some agg ->
  run (agg []) log = (log, Err ValueError).
Proof. intros ->%aggregation_lookup. apply _squad_agg_no_items. Qed.

(** Any two declared aggregators, of the same class or not, put the same
    invocation in the log when run on the same items: which name is being
    aggregated shows only in the field read afterwards. *)
Lemma aggregators_make_the_same_call `{!DatasetsLib} cls1 cls2 k1 k2
    (agg1 agg2 : list (Prediction * Reference) -> Svc float) items log :
  Task.aggregation cls1 !! k1 = Some agg1 ->
  Task.aggregation cls2 !! k2 = Some agg2 ->
  (run (agg1 items) log).1 = (run (agg2 items) log).1.
Proof.
  intros ->%aggregation_lookup ->%aggregation_lookup.
  destruct items as [|item items]; [reflexivity|].
  by rewrite !_squad_agg_items.
Qed.

(** A dictionary from the Scoring Service that lacks the field of a declared
    name makes that aggregator raise [KeyError], after the one invocation. *)
Lemma aggregation_missing_field `{!DatasetsLib} cls k
    (agg : list (Prediction * Reference) -> Svc float) items log
    (d : gmap string float) :
  Task.aggregation cls !! k = Some agg ->
  items <> [] ->
  compute (load_metric "squad_v2") (map fst items) (map snd items) = Ok d ->
  d !! k = None ->
  run (agg items) log
  = ((log ++ [{| call_predictions := map fst items;
                 call_references := map snd items |}])%list,
     Err KeyError).
Proof.
  intros ->%aggregation_lookup Hne Hd Hk.
  rewrite _squad_agg_items by done. rewrite Hd. simpl.
  unfold getitem. by rewrite Hk.
Qed.

(** An exception of the Scoring Service is the exception of the aggregator;
    the invocation is in the log all the same. *)
Lemma aggregation_service_error `{!DatasetsLib} cls k
    (agg : list (Prediction * Reference) -> Svc float) items log e :
  Task.aggregation cls !! k = Some agg ->
  items <> [] ->
  compute (load_metric "squad_v2") (map fst items) (map snd items) = Err e ->
  run (agg items) log
  = ((log ++ [{| call_predictions := map fst items;
                 call_references := map snd items |}])%list,
     Err e).
Proof.
  intros ->%aggregation_lookup Hne He.
  rewrite _squad_agg_items by done. by rewrite He.
Qed.

Lemma combine_fst_snd {A B} (items : list (A * B)) :
  combine (map fst items) (map snd items) = items.
Proof. induction items as [|[a b] items IH]; simpl; [done|by rewrite IH]. Qed.

(** The two lists the Scoring Service receives are parallel: as long as the
    items, in their order, and pairing them up position by position gives
    the items back. *)
Lemma aggregation_passes_parallel_lists `{!DatasetsLib} cls k
    (agg : list (Prediction * Reference) -> Svc float) items log :
  Task.aggregation cls !! k = Some agg ->
  items <> [] ->
  exists c,
    (run (agg items) log).1 = (log ++ [c])%list /\
    length (call_predictions c) = length items /\
    length (call_references c) = length items /\
    combine (call_predictions c) (call_references c) = items.
Proof.
  intros ->%aggregation_lookup Hne.
  rewrite _squad_agg_items by done. simpl.
  eexists; split; [reflexivity|]; simpl.
  by rewrite !length_map, combine_fst_snd.
Qed.

(** Of the [datasets] library an aggregator uses the metric ["squad_v2"] and
    no other: two libraries that load the same metric under that name give
    the same run. *)
Lemma aggregation_uses_squad_v2_only (D1 D2 : DatasetsLib) cls k
    (agg1 agg2 : list (Prediction * Reference) -> Svc float) items log :
  load_metric (DatasetsLib := D1) "squad_v2" = load_metric (DatasetsLib := D2) "squad_v2" ->
  Task.aggregation (H := D1) cls !! k = Some agg1 ->
  Task.aggregation (H := D2) cls !! k = Some agg2 ->
  run (agg1 items) log = run (agg2 items) log.
Proof.
  intros Hsame ->%aggregation_lookup ->%aggregation_lookup.
  unfold _squad_agg, _squad_metric. by rewrite Hsame.
Qed.

(** Every declared metric is one where higher is better. *)
Lemma higher_is_better_all_true cls k b :
  Task.higher_is_better cls !! k = Some b -> b = true.
Proof.
  intros Hk. destruct cls; simpl in Hk; apply lookup_dict in Hk; elem_cases Hk;
    reflexivity.
Qed.

(** The declared names of the two classes: six in common, [NoAns_exact] and
    [NoAns_f1] in [xquad_en] alone, [best_exact_thresh] and [best_f1_thresh]
    in [xquad_ar] alone. *)
Lemma declared_names_of_the_classes :
  dom xquad_en.higher_is_better ∩ dom xquad_ar.higher_is_better
  = list_to_set ["exact"; "f1"; "HasAns_exact"; "HasAns_f1"; "best_exact"; "best_f1"] /\
  dom xquad_en.higher_is_better ∖ dom xquad_ar.higher_is_better
  = list_to_set ["NoAns_exact"; "NoAns_f1"] /\
  dom xquad_ar.higher_is_better ∖ dom xquad_en.higher_is_better
  = list_to_set ["best_exact_thresh"; "best_f1_thresh"].
Proof. split_and!; by vm_compute. Qed.

(** ** [construct_requests]: what it reads *)

(** Of the run args only ["num_fewshot"] is read, of the task only the
    stopping criteria and the generation length, and of the record nothing:
    any other entry of the run args, [save_examples], the dataset and the
    record's fields do not reach the requests. *)
Lemma construct_requests_reads_num_fewshot cls self self' doc doc' ctx
    (args args' : gmap string pyval) :
  args !! "num_fewshot" = args' !! "num_fewshot" ->
  stopping_criteria self = stopping_criteria self' ->
  max_generation_length self = max_generation_length self' ->
  Task.construct_requests cls self doc ctx args
  = Task.construct_requests cls self' doc' ctx args'.
Proof.
  intros Hn Hstop Hlen.
  destruct cls; simpl; unfold xquad_en.construct_requests, xquad_ar.construct_requests,
    getitem; rewrite Hn, Hstop, Hlen; reflexivity.
Qed.

(** Whatever [construct_requests] returns is a generation request and a
    likelihood request on the context it was given, the first with exactly
    the three arguments ["stopping_criteria"], ["max_generation_length"] and
    ["num_fewshot"], the last one copied from the run args. *)
Lemma construct_requests_Ok cls self doc ctx (args : gmap string pyval) requests :
  Task.construct_requests cls self doc ctx args = Ok requests ->
  exists request_args : gmap string pyval,
    requests = [greedy_until ctx request_args; loglikelihood ctx " unanswerable"] /\
    dom request_args
    = list_to_set ["stopping_criteria"; "max_generation_length"; "num_fewshot"] /\
    request_args !! "num_fewshot" = args !! "num_fewshot".
Proof.
  intros Hret.
  destruct cls; simpl in Hret;
    unfold xquad_en.construct_requests, xquad_ar.construct_requests, getitem in Hret;
    (destruct (args !! "num_fewshot") as [n|]; simpl in Hret; [|discriminate]);
    injection Hret as <-; eexists; (split; [reflexivity|]); split;
    [by rewrite dom_dict|reflexivity|by rewrite dom_dict|reflexivity].
Qed.

(** ** The document accessors *)

(** [validation_docs()] returns the records stored under ["validation"], as
    they are, and raises [KeyError] when the dataset has no such split;
    [has_validation_docs()] answers [True] in either case. *)
Lemma validation_docs_reads_validation_split cls self :
  Task.has_validation_docs cls self = true /\
  (forall docs, dataset self !! "validation" = Some docs ->
     Task.validation_docs cls self = Ok docs) /\
  (dataset self !! "validation" = None ->
     Task.validation_docs cls self = Err KeyError).
Proof.
  destruct cls; simpl; unfold xquad_en.validation_docs, xquad_ar.validation_docs, getitem;
    (split_and!; [reflexivity|by intros docs ->|by intros ->]).
Qed.

(** ** Worked inputs for the further properties *)

Lemma process_results_ignores_greedy_flag_witness :
  unpack2 Sample.results = Ok (PyStr "Paris", PyTuple [PyFloat (-5); PyBool false]) /\
  unpack2 (PyTuple [PyFloat (-5); PyBool false]) = Ok (PyFloat (-5), PyBool false) /\
  Task.process_results (H := Sample.math) Xquad_en (Sample.task true) Sample.paris
    Sample.results
  = Task.process_results (H := Sample.math) Xquad_en (Sample.task true) Sample.paris
      (PyTuple [PyStr "Paris"; PyTuple [PyFloat (-5); PyNone]]).
Proof.
  split; [reflexivity|]. split; [reflexivity|].
  apply (process_results_ignores_greedy_flag (H := Sample.math) Xquad_en
           (Sample.task true) Sample.paris Sample.results (PyStr "Paris")
           (PyTuple [PyFloat (-5); PyBool false]) (PyFloat (-5)) (PyBool false));
    reflexivity.
Defined.

Lemma process_results_reads_id_and_answers_witness :
  save_examples (Sample.task true) = save_examples (Sample.task true) /\
  doc_id Sample.paris = doc_id Sample.paris_reworded /\
  doc_answers Sample.paris = doc_answers Sample.paris_reworded /\
  Task.process_results (H := Sample.math) Xquad_ar (Sample.task true) Sample.paris
    Sample.results
  = Task.process_results (H := Sample.math) Xquad_ar (Sample.task true)
      Sample.paris_reworded Sample.results.
Proof.
  split_and!; [reflexivity..|].
  apply (process_results_reads_id_and_answers (H := Sample.math) Xquad_ar
           (Sample.task true) (Sample.task true) Sample.paris Sample.paris_reworded
           Sample.results);
    reflexivity.
Defined.

Lemma process_results_exp_error_witness :
  unpack2 Sample.results_overflow
  = Ok (PyStr "Paris", PyTuple [PyFloat 800; PyBool false]) /\
  unpack2 (PyTuple [PyFloat 800; PyBool false]) = Ok (PyFloat 800, PyBool false) /\
  call_exp (H := Sample.math) (PyFloat 800) = Err OverflowError /\
  Task.process_results (H := Sample.math) Xquad_en (Sample.task false) Sample.paris
    Sample.results_overflow = Err OverflowError.
Proof.
  split_and!; [reflexivity..|].
  apply (process_results_exp_error (H := Sample.math) Xquad_en (Sample.task false)
           Sample.paris Sample.results_overflow (PyStr "Paris")
           (PyTuple [PyFloat 800; PyBool false]) (PyFloat 800) (PyBool false)
           OverflowError);
    reflexivity.
Defined.

Lemma process_results_names_have_aggregators_witness :
  Task.process_results (H := Sample.math) Xquad_ar (Sample.task true) Sample.paris
    Sample.results
  = Ok (Sample.metrics_ar (Sample.payload (PyStr "Paris") 0x1.b993fe00d5376p-8%float),
        Sample.example (PyStr "Paris")) /\
  dom (Sample.metrics_ar (Sample.payload (PyStr "Paris") 0x1.b993fe00d5376p-8%float))
  = dom (Task.aggregation (H := Sample.datasets) Xquad_ar).
Proof.
  split; [reflexivity|].
  apply (process_results_names_have_aggregators (H := Sample.math)
           (H0 := Sample.datasets) Xquad_ar (Sample.task true) Sample.paris
           Sample.results _ (Sample.example (PyStr "Paris"))).
  reflexivity.
Defined.

Lemma aggregation_no_items_witness :
  Task.aggregation (H := Sample.datasets) Xquad_ar !! "best_f1_thresh"
  = Some (_squad_agg (H := Sample.datasets) "best_f1_thresh") /\
  run (_squad_agg (H := Sample.datasets) "best_f1_thresh" []) []
  = ([], Err ValueError).
Proof.
  split; [reflexivity|].
  apply (aggregation_no_items (H := Sample.datasets) Xquad_ar "best_f1_thresh"
           (_squad_agg (H := Sample.datasets) "best_f1_thresh") []).
  reflexivity.
Defined.

Lemma aggregators_make_the_same_call_witness :
  Task.aggregation (H := Sample.datasets) Xquad_en !! "NoAns_f1"
  = Some (_squad_agg (H := Sample.datasets) "NoAns_f1") /\
  Task.aggregation (H := Sample.datasets) Xquad_ar !! "exact"
  = Some (_squad_agg (H := Sample.datasets) "exact") /\
  (run (_squad_agg (H := Sample.datasets) "NoAns_f1"
          [Sample.payload (PyStr "Paris") 1%float]) []).1
  = (run (_squad_agg (H := Sample.datasets) "exact"
          [Sample.payload (PyStr "Paris") 1%float]) []).1.
Proof.
  split; [reflexivity|]. split; [reflexivity|].
  apply (aggregators_make_the_same_call (H := Sample.datasets) Xquad_en Xquad_ar
           "NoAns_f1" "exact" (_squad_agg (H := Sample.datasets) "NoAns_f1")
           (_squad_agg (H := Sample.datasets) "exact")
           [Sample.payload (PyStr "Paris") 1%float] []);
    reflexivity.
Defined.

(** [xquad_en] declares ["NoAns_exact"]; a service that scored answerable
    questions only does not report it. *)
Lemma aggregation_missing_field_witness :
  Task.aggregation (H := Sample.datasets_answerable) Xquad_en !! "NoAns_exact"
  = Some (_squad_agg (H := Sample.datasets_answerable) "NoAns_exact") /\
  [Sample.payload (PyStr "Paris") 1%float] <> [] /\
  (exists d : gmap string float,
     compute (load_metric (DatasetsLib := Sample.datasets_answerable) "squad_v2")
       [(Sample.payload (PyStr "Paris") 1%float).1]
       [(Sample.payload (PyStr "Paris") 1%float).2] = Ok d /\
     d !! "NoAns_exact" = None) /\
  run (_squad_agg (H := Sample.datasets_answerable) "NoAns_exact"
         [Sample.payload (PyStr "Paris") 1%float]) []
  = ([{| call_predictions := [(Sample.payload (PyStr "Paris") 1%float).1];
         call_references := [(Sample.payload (PyStr "Paris") 1%float).2] |}],
     Err KeyError).
Proof.
  split; [reflexivity|]. split; [discriminate|].
  split; [eexists; split; reflexivity|].
  eapply (aggregation_missing_field (H := Sample.datasets_answerable) Xquad_en
            "NoAns_exact" (_squad_agg (H := Sample.datasets_answerable) "NoAns_exact")
            [Sample.payload (PyStr "Paris") 1%float] []);
    [reflexivity|discriminate|reflexivity|reflexivity].
Defined.

Lemma aggregation_service_error_witness :
  Task.aggregation (H := Sample.datasets_failing) Xquad_en !! "f1"
  = Some (_squad_agg (H := Sample.datasets_failing) "f1") /\
  [Sample.payload (PyStr "Paris") 1%float] <> [] /\
  compute (load_metric (DatasetsLib := Sample.datasets_failing) "squad_v2")
    [(Sample.payload (PyStr "Paris") 1%float).1]
    [(Sample.payload (PyStr "Paris") 1%float).2] = Err ValueError /\
  run (_squad_agg (H := Sample.datasets_failing) "f1"
         [Sample.payload (PyStr "Paris") 1%float]) []
  = ([{| call_predictions := [(Sample.payload (PyStr "Paris") 1%float).1];
         call_references := [(Sample.payload (PyStr "Paris") 1%float).2] |}],
     Err ValueError).
Proof.
  split; [reflexivity|]. split; [discriminate|]. split; [reflexivity|].
  apply (aggregation_service_error (H := Sample.datasets_failing) Xquad_en "f1"
           (_squad_agg (H := Sample.datasets_failing) "f1")
           [Sample.payload (PyStr "Paris") 1%float] [] ValueError);
    [reflexivity|discriminate|reflexivity].
Defined.

Lemma aggregation_passes_parallel_lists_witness :
  Task.aggregation (H := Sample.datasets) Xquad_en !! "exact"
  = Some (_squad_agg (H := Sample.datasets) "exact") /\
  [Sample.payload (PyStr "Paris") 1%float; Sample.payload (PyStr "Lyon") 0%float] <> [] /\
  exists c,
    (run (_squad_agg (H := Sample.datasets) "exact"
            [Sample.payload (PyStr "Paris") 1%float;
             Sample.payload (PyStr "Lyon") 0%float]) []).1 = [c] /\
    length (call_predictions c) = 2 /\
    length (call_references c) = 2 /\
    combine (call_predictions c) (call_references c)
    = [Sample.payload (PyStr "Paris") 1%float; Sample.payload (PyStr "Lyon") 0%float].
Proof.
  split; [reflexivity|]. split; [discriminate|].
  apply (aggregation_passes_parallel_lists (H := Sample.datasets) Xquad_en "exact"
           (_squad_agg (H := Sample.datasets) "exact")
           [Sample.payload (PyStr "Paris") 1%float;
            Sample.payload (PyStr "Lyon") 0%float] []);
    [reflexivity|discriminate].
Defined.

Lemma aggregation_uses_squad_v2_only_witness :
  load_metric (DatasetsLib := Sample.datasets) "squad_v2"
  = load_metric (DatasetsLib := Sample.datasets_squad_v2_only) "squad_v2" /\
  Task.aggregation (H := Sample.datasets) Xquad_en !! "f1"
  = Some (_squad_agg (H := Sample.datasets) "f1") /\
  Task.aggregation (H := Sample.datasets_squad_v2_only) Xquad_en !! "f1"
  = Some (_squad_agg (H := Sample.datasets_squad_v2_only) "f1") /\
  run (_squad_agg (H := Sample.datasets) "f1"
         [Sample.payload (PyStr "Paris") 1%float]) []
  = run (_squad_agg (H := Sample.datasets_squad_v2_only) "f1"
           [Sample.payload (PyStr "Paris") 1%float]) [].
Proof.
  split_and!; [reflexivity..|].
  apply (aggregation_uses_squad_v2_only Sample.datasets Sample.datasets_squad_v2_only
           Xquad_en "f1" (_squad_agg (H := Sample.datasets) "f1")
           (_squad_agg (H := Sample.datasets_squad_v2_only) "f1")
           [Sample.payload (PyStr "Paris") 1%float] []);
    reflexivity.
Defined.

Lemma higher_is_better_all_true_witness :
  Task.higher_is_better Xquad_ar !! "best_exact_thresh" = Some true /\ true = true.
Proof.
  split; [reflexivity|].
  apply (higher_is_better_all_true Xquad_ar "best_exact_thresh" true).
  reflexivity.
Defined.

Lemma construct_requests_reads_num_fewshot_witness :
  Sample.args !! "num_fewshot" = Sample.args_with_seed !! "num_fewshot" /\
  stopping_criteria (Sample.task true) = stopping_criteria (Sample.task false) /\
  max_generation_length (Sample.task true) = max_generation_length (Sample.task false) /\
  Task.construct_requests Xquad_en (Sample.task true) Sample.paris "Q: " Sample.args
  = Task.construct_requests Xquad_en (Sample.task false) Sample.paris_reworded "Q: "
      Sample.args_with_seed.
Proof.
  split_and!; [reflexivity..|].
  apply (construct_requests_reads_num_fewshot Xquad_en (Sample.task true)
           (Sample.task false) Sample.paris Sample.paris_reworded "Q: " Sample.args
           Sample.args_with_seed);
    reflexivity.
Defined.

Lemma construct_requests_Ok_witness :
  Task.construct_requests Xquad_ar (Sample.task true) Sample.paris "Q: "
    Sample.args_with_seed
  = Ok [greedy_until "Q: "
          (dict [("stopping_criteria", PyNone); ("max_generation_length", PyNone);
                 ("num_fewshot", PyInt 0)]);
        loglikelihood "Q: " " unanswerable"] /\
  exists request_args : gmap string pyval,
    [greedy_until "Q: "
       (dict [("stopping_criteria", PyNone); ("max_generation_length", PyNone);
              ("num_fewshot", PyInt 0)]);
     loglikelihood "Q: " " unanswerable"]
    = [greedy_until "Q: " request_args; loglikelihood "Q: " " unanswerable"] /\
    dom request_args
    = list_to_set ["stopping_criteria"; "max_generation_length"; "num_fewshot"] /\
    request_args !! "num_fewshot" = Sample.args_with_seed !! "num_fewshot".
Proof.
  split; [reflexivity|].
  apply (construct_requests_Ok Xquad_ar (Sample.task true) Sample.paris "Q: "
           Sample.args_with_seed).
  reflexivity.
Defined.
